(** * The video resource of the API (resources/video.py)

    A shallow embedding of the request handlers of [resources/video.py]:
    the four methods of the [Video] resource and the nested [Metrics]
    resource, together with the pieces of their environment they touch
    (the rows of the video table, the Prometheus counter and histogram,
    the request parsers and the marshalling of the answer).

    What is outside the embedding: the text written by [logging], which no
    handler reads back, and floating point (the elapsed time that the
    histogram timer measures is an input of the handler, a number of clock
    ticks). *)

From stdpp Require Import gmap strings pretty list.

Open Scope Z_scope.

(** ** Values exchanged with the client *)

(** The JSON documents the handlers answer with. *)
#[warnings="-register-all"]
Inductive json :=
| JInt (z : Z)
| JStr (s : string)
| JObj (members : list (string * json)).

(** A body argument as the request carries it, seen through the [type]
    conversion of its [reqparse] argument: the key is not in the request, or
    its value does not convert ([int("abc")] raises), or it converts to [a].
    An explicit JSON null is not represented: [reqparse] hands it on as
    [None] and what the table does with an empty column is decided by the
    column declarations of [VideoModel]. *)
Inductive field_in (A : Type) :=
| Absent
| Invalid
| Given (a : A).
Arguments Absent {A}.
Arguments Invalid {A}.
Arguments Given {A} a.

(** The body of a request: the three arguments both parsers look for. *)
Record body := Body {
  b_name : field_in string;
  b_views : field_in Z;
  b_likes : field_in Z
}.

(** Modelled from the spec: the class [VideoModel] of [models/video.py],
    which is not part of the sources at hand. The spec gives the entity the
    columns [id] (integer, primary key), [name] (string), [views] and
    [likes] (integers). *)
Module VideoModel.
Record t := Make {
  id : Z;
  name : string;
  views : Z;
  likes : Z
}.

(** [video.name = x], [video.views = x] and [video.likes = x]. *)
Definition set_name (x : string) (v : t) : t :=
  {| id := id v; name := x; views := views v; likes := likes v |}.
Definition set_views (x : Z) (v : t) : t :=
  {| id := id v; name := name v; views := x; likes := likes v |}.
Definition set_likes (x : Z) (v : t) : t :=
  {| id := id v; name := name v; views := views v; likes := x |}.
End VideoModel.

(** What a handler hands back to the framework: a JSON document, or (for
    the metrics resource) the exposition of the two metric families as they
    stand when [generate_latest] runs. *)
Inductive payload :=
| Json (j : json)
| Exposition (counters : gmap (string * string) nat)
             (histograms : gmap (string * string) (list N)).

Record response := Response {
  body_of : payload;
  status : Z
}.

(** The exception [abort] raises: a status code and the [data] that becomes
    the JSON body of the answer. *)
Record HTTPException := Abort {
  code : Z;
  data : json
}.

(** ** The process-wide state *)

(** [db]: the rows of the video table, in insertion order.
    [request_counter], [response_histogram]: the children of the two
    metrics, keyed by their labels [(method, endpoint)]; a histogram child
    is the list of the durations observed so far. *)
Record world := World {
  db : list VideoModel.t;
  request_counter : gmap (string * string) nat;
  response_histogram : gmap (string * string) (list N)
}.

Definition with_db (f : list VideoModel.t → list VideoModel.t) (w : world) : world :=
  {| db := f (db w);
     request_counter := request_counter w;
     response_histogram := response_histogram w |}.

(** The value of a counter child; a child that was never touched reads 0. *)
Definition counter_value (w : world) (method endpoint : string) : nat :=
  default 0%nat (request_counter w !! (method, endpoint)).

(** The observations of a histogram child. *)
Definition observations (w : world) (method endpoint : string) : list N :=
  default [] (response_histogram w !! (method, endpoint)).

(** ** Handlers: state passing with exceptions *)

(** A handler runs on the world and either raises or returns, and leaves a
    world behind in both cases. *)
Definition handler (A : Type) : Type := world → (HTTPException + A) * world.

#[global] Instance handler_ret : MRet handler := λ A a w, (inr a, w).

#[global] Instance handler_bind : MBind handler := λ A B f m w,
  match m w with
  | (inl e, w') => (inl e, w')
  | (inr a, w') => f a w'
  end.

(** [abort(code, message=...)] of flask_restful. *)
Definition abort {A : Type} (c : Z) (message : json) : handler A :=
  λ w, (inl {| code := c; data := JObj [("message", message)] |}, w).

(** [counter.labels(method=..., endpoint=...).inc()]. *)
Definition inc (method endpoint : string) : handler unit :=
  λ w, (inr (),
        {| db := db w;
           request_counter :=
             <[(method, endpoint) := S (counter_value w method endpoint)]> (request_counter w);
           response_histogram := response_histogram w |}).

Definition observe (method endpoint : string) (elapsed : N) (w : world) : world :=
  {| db := db w;
     request_counter := request_counter w;
     response_histogram :=
       <[(method, endpoint) := observations w method endpoint ++ [elapsed]]>
         (response_histogram w) |}.

(** [with histogram.labels(method=..., endpoint=...).time(): block]. The
    timer observes the elapsed time when the block is left, by a return or
    by an exception alike. *)
Definition time {A : Type} (method endpoint : string) (elapsed : N)
    (block : handler A) : handler A :=
  λ w, let '(r, w') := block w in (r, observe method endpoint elapsed w').

(** ** The table *)

Definition has_id (video_id : Z) (v : VideoModel.t) : bool :=
  VideoModel.id v =? video_id.

(** [VideoModel.query.filter_by(id=video_id).first()]. *)
Definition query_filter_by_id_first (video_id : Z) : handler (option VideoModel.t) :=
  λ w, (inr (find (has_id video_id) (db w)), w).

(** [VideoModel.query.get(video_id)]: the row with that primary key. *)
Definition query_get (video_id : Z) : handler (option VideoModel.t) :=
  λ w, (inr (find (has_id video_id) (db w)), w).

(** [db.session.add(video)]: the row is inserted. *)
Definition session_add (video : VideoModel.t) : handler unit :=
  λ w, (inr (), with_db (λ rows, rows ++ [video]) w).

(** [db.session.delete(video)]: the row with the primary key of [video] is
    deleted. *)
Definition session_delete (video : VideoModel.t) : handler unit :=
  λ w, (inr (),
        with_db (List.filter (λ r, negb (has_id (VideoModel.id video) r))) w).

(** An assignment to an attribute of a loaded [video]. The object is the
    session's view of its row, so the row with its primary key changes with
    it; the handler goes on with the changed object. *)
Definition setattr (video : VideoModel.t) (assign : VideoModel.t → VideoModel.t) :
    handler VideoModel.t :=
  λ w, (inr (assign video),
        with_db (map (λ r, if has_id (VideoModel.id video) r then assign r else r)) w).

(** [db.session.commit()]. The operations above act on the table at once:
    no handler raises between a change and its commit. *)
Definition session_commit : handler unit := mret ().

(** ** Parsing the body *)

(** An argument declared with [required=True]: a missing key and a value
    that does not convert both abort with 400 and the argument's [help]
    under the argument's name. *)
Definition required_argument {A : Type} (name help : string) (x : field_in A) :
    handler A :=
  match x with
  | Given a => mret a
  | Invalid | Absent => abort 400 (JObj [(name, JStr help)])
  end.

(** An argument that is not required: a missing key parses to [None]. *)
Definition optional_argument {A : Type} (name help : string) (x : field_in A) :
    handler (option A) :=
  match x with
  | Given a => mret (Some a)
  | Absent => mret None
  | Invalid => abort 400 (JObj [(name, JStr help)])
  end.

(** [video_put_args.parse_args()]: the arguments in the order they were
    added, the first failure aborts. *)
Definition video_put_args (b : body) : handler (string * Z * Z) :=
  name ← required_argument "name" "Nombre del video es requerido" (b_name b);
  views ← required_argument "views" "Número de vistas del video" (b_views b);
  likes ← required_argument "likes" "Número de likes del video" (b_likes b);
  mret (name, views, likes).

(** [video_update_args.parse_args()]. *)
Definition video_update_args (b : body) :
    handler (option string * option Z * option Z) :=
  name ← optional_argument "name" "Nombre del video" (b_name b);
  views ← optional_argument "views" "Número de vistas del video" (b_views b);
  likes ← optional_argument "likes" "Número de likes del video" (b_likes b);
  mret (name, views, likes).

(** ** Serialising the answer *)

(** [marshal(video, resource_fields)]. *)
Definition marshal (video : VideoModel.t) : json :=
  JObj [("id", JInt (VideoModel.id video));
        ("name", JStr (VideoModel.name video));
        ("views", JInt (VideoModel.views video));
        ("likes", JInt (VideoModel.likes video))].

(** The decorator [@marshal_with(resource_fields)]. *)
Definition marshal_with (method : handler (VideoModel.t * Z)) : handler response :=
  '(video, c) ← method;
  mret {| body_of := Json (marshal video); status := c |}.

(** ** The resource *)

Definition abort_if_video_doesnt_exist (video_id : Z) : handler VideoModel.t :=
  video ← query_filter_by_id_first video_id;
  match video with
  | None => abort 404 (JStr ("No se encontró un video con el ID " +:+ pretty video_id))
  | Some video => mret video
  end.

Module Video.

Definition get (video_id : Z) : handler response :=
  marshal_with (
    video ← abort_if_video_doesnt_exist video_id;
    mret (video, 200)).

Definition put (video_id : Z) (b : body) (elapsed : N) : handler response :=
  marshal_with (
    inc "PUT" "/video/<int:video_id>";;
    time "PUT" "/video/<int:video_id}" elapsed (
      '(name, views, likes) ← video_put_args b;
      existing_video ← query_get video_id;
      match existing_video with
      | Some _ =>
          abort 409 (JStr ("Ya existe un video con el ID " +:+ pretty video_id))
      | None =>
          let video := VideoModel.Make video_id name views likes in
          session_add video;;
          session_commit;;
          mret (video, 201)
      end)).

Definition patch (video_id : Z) (b : body) (elapsed : N) : handler response :=
  marshal_with (
    inc "PATCH" "/video/<int:video_id>";;
    time "PATCH" "/video/<int:video_id}" elapsed (
      video ← abort_if_video_doesnt_exist video_id;
      '(name, views, likes) ← video_update_args b;
      video ← match name with
              | Some x => setattr video (VideoModel.set_name x)
              | None => mret video
              end;
      video ← match views with
              | Some x => setattr video (VideoModel.set_views x)
              | None => mret video
              end;
      video ← match likes with
              | Some x => setattr video (VideoModel.set_likes x)
              | None => mret video
              end;
      session_commit;;
      mret (video, 200))).

Definition delete (video_id : Z) (elapsed : N) : handler response :=
  inc "DELETE" "/video/<int:video_id>";;
  time "DELETE" "/video/<int:video_id}" elapsed (
    video ← abort_if_video_doesnt_exist video_id;
    session_delete video;;
    session_commit;;
    mret {| body_of :=
              Json (JObj [("message",
                           JStr ("Video con id " +:+ pretty video_id +:+ " eliminado"))]);
            status := 204 |}).

Module Metrics.

Definition get (elapsed : N) : handler response :=
  inc "GET" "/metrics";;
  time "GET" "/metrics" elapsed (
    λ w, (inr {| body_of := Exposition (request_counter w) (response_histogram w);
                 status := 200 |}, w)).

End Metrics.

End Video.

(** ** Requests *)

Inductive request :=
| GET (video_id : Z)
| PUT (video_id : Z) (b : body)
| PATCH (video_id : Z) (b : body)
| DELETE (video_id : Z)
| GET_metrics.

(** The framework around a method: an exception becomes the answer with its
    code and its data as the body. *)
Definition respond (method : handler response) (w : world) : response * world :=
  match method w with
  | (inr r, w') => (r, w')
  | (inl e, w') => ({| body_of := Json (data e); status := code e |}, w')
  end.

(** One request, handled on the world [w]; [elapsed] is what the timer of
    the method measures. *)
Definition handle (r : request) (elapsed : N) (w : world) : response * world :=
  match r with
  | GET video_id => respond (Video.get video_id) w
  | PUT video_id b => respond (Video.put video_id b elapsed) w
  | PATCH video_id b => respond (Video.patch video_id b elapsed) w
  | DELETE video_id => respond (Video.delete video_id elapsed) w
  | GET_metrics => respond (Video.Metrics.get elapsed) w
  end.

(** The world after a sequence of requests, each with its elapsed time. *)
Definition run (rs : list (request * N)) (w : world) : world :=
  foldl (λ w r, (handle r.1 r.2 w).2) w rs.

(** The world of a fresh process on an empty table. *)
Definition initial : world :=
  {| db := []; request_counter := ∅; response_histogram := ∅ |}.

(** A body carrying the given arguments, a missing one as [None]. *)
Definition arg {A : Type} (x : option A) : field_in A :=
  match x with
  | Some a => Given a
  | None => Absent
  end.

Definition body_with (name : option string) (views likes : option Z) : body :=
  {| b_name := arg name; b_views := arg views; b_likes := arg likes |}.

(** * Vocabulary of the properties *)

(** The row a lookup by primary key finds. *)
Definition row_of (w : world) (video_id : Z) : option VideoModel.t :=
  find (has_id video_id) (db w).

(** A table with one row, for trying the handlers. *)
Definition one_video : world :=
  {| db := [VideoModel.Make 1 "a" 0 0]; request_counter := ∅; response_histogram := ∅ |}.

(** The record a partial update leaves: each argument that is given
    replaces its field, each missing one keeps the field. *)
Definition merged (name : option string) (views likes : option Z)
    (v : VideoModel.t) : VideoModel.t :=
  {| VideoModel.id := VideoModel.id v;
     VideoModel.name := default (VideoModel.name v) name;
     VideoModel.views := default (VideoModel.views v) views;
     VideoModel.likes := default (VideoModel.likes v) likes |}.

(** The three arguments of the parsers, in the order they are added. *)
Inductive argument := name_arg | views_arg | likes_arg.

Definition key (a : argument) : string :=
  match a with
  | name_arg => "name"
  | views_arg => "views"
  | likes_arg => "likes"
  end.

(** The [help] of the argument in [video_put_args]. *)
Definition put_help (a : argument) : string :=
  match a with
  | name_arg => "Nombre del video es requerido"
  | views_arg => "Número de vistas del video"
  | likes_arg => "Número de likes del video"
  end.

Definition is_absent {A : Type} (x : field_in A) : bool :=
  match x with Absent => true | _ => false end.
Definition is_invalid {A : Type} (x : field_in A) : bool :=
  match x with Invalid => true | _ => false end.
Definition is_given {A : Type} (x : field_in A) : bool :=
  match x with Given _ => true | _ => false end.

(** A test on the argument [a] of the body [b]. *)
Definition on_argument (test : ∀ A, field_in A → bool) (b : body) (a : argument) : bool :=
  match a with
  | name_arg => test _ (b_name b)
  | views_arg => test _ (b_views b)
  | likes_arg => test _ (b_likes b)
  end.

Definition missing (b : body) (a : argument) : Prop := on_argument (@is_absent) b a = true.
Definition ill_typed (b : body) (a : argument) : Prop := on_argument (@is_invalid) b a = true.

(** The first argument, in the order of the parser, that is not given. *)
Definition first_failing (b : body) : option argument :=
  if negb (is_given (b_name b)) then Some name_arg
  else if negb (is_given (b_views b)) then Some views_arg
  else if negb (is_given (b_likes b)) then Some likes_arg
  else None.

(** The answer to a body that fails on the argument [a]. *)
Definition validation_error (a : argument) : response :=
  {| body_of := Json (JObj [("message", JObj [(key a, JStr (put_help a))])]);
     status := 400 |}.

(** The reading of C6 as it is worded: on a body that misses an argument
    the answer is 400 with a message under the name of a missing argument,
    and the table is kept. *)
Definition names_a_missing_argument (w : world) (video_id : Z) (b : body) (elapsed : N) : Prop :=
  (∃ a, missing b a) →
  ∃ a, missing b a
       ∧ (handle (PUT video_id b) elapsed w).1 = validation_error a
       ∧ db (handle (PUT video_id b) elapsed w).2 = db w.

(** The method label of a request. *)
Definition method_of (r : request) : string :=
  match r with
  | GET _ | GET_metrics => "GET"
  | PUT _ _ => "PUT"
  | PATCH _ _ => "PATCH"
  | DELETE _ => "DELETE"
  end.

(** What a request does to the metrics when it reaches the [Video]
    resource: a fetch leaves the world as it is, counter and histogram
    included; a create, a partial update and a delete add one to the
    counter child of [(method, "/video/<int:video_id>")], leave the
    histogram child of that key as it is, and record the elapsed time in
    the histogram child of [(method, "/video/<int:video_id}")]. *)
Definition metrics_effect (r : request) (elapsed : N) (w : world) : Prop :=
  let w' := (handle r elapsed w).2 in
  match r with
  | GET _ => w' = w
  | GET_metrics =>
      counter_value w' "GET" "/metrics" = S (counter_value w "GET" "/metrics")
      ∧ observations w' "GET" "/metrics" = observations w "GET" "/metrics" ++ [elapsed]
  | _ =>
      counter_value w' (method_of r) "/video/<int:video_id>"
      = S (counter_value w (method_of r) "/video/<int:video_id>")
      ∧ observations w' (method_of r) "/video/<int:video_id>"
        = observations w (method_of r) "/video/<int:video_id>"
      ∧ observations w' (method_of r) "/video/<int:video_id}"
        = observations w (method_of r) "/video/<int:video_id}" ++ [elapsed]
  end.

(** What one request can do to the table. *)
Definition table_step (r : request) (elapsed : N) (w : world) : Prop :=
  let w' := (handle r elapsed w).2 in
  match r with
  | PUT video_id b =>
      db w' = db w
      ∨ (row_of w video_id = None
         ∧ ∃ name views likes, db w' = db w ++ [VideoModel.Make video_id name views likes])
  | DELETE video_id => db w' = List.filter (λ v, negb (has_id video_id v)) (db w)
  | PATCH _ _ => map VideoModel.id (db w') = map VideoModel.id (db w)
  | GET _ | GET_metrics => db w' = db w
  end.

(** The [help] of the argument in [video_update_args]. *)
Definition update_help (a : argument) : string :=
  match a with
  | name_arg => "Nombre del video"
  | views_arg => "Número de vistas del video"
  | likes_arg => "Número de likes del video"
  end.

(** The first argument, in the order of the parser, whose value does not
    convert. *)
Definition first_ill_typed (b : body) : option argument :=
  if is_invalid (b_name b) then Some name_arg
  else if is_invalid (b_views b) then Some views_arg
  else if is_invalid (b_likes b) then Some likes_arg
  else None.

(** The id in the path of a request; the metrics resource has none. *)
Definition target (r : request) : option Z :=
  match r with
  | GET video_id | PUT video_id _ | PATCH video_id _ | DELETE video_id => Some video_id
  | GET_metrics => None
  end.

(** The labels of the counter child that the method of a request
    increments, if it increments one. *)
Definition counted_under (r : request) : option (string * string) :=
  match r with
  | GET _ => None
  | PUT _ _ => Some ("PUT", "/video/<int:video_id>")
  | PATCH _ _ => Some ("PATCH", "/video/<int:video_id>")
  | DELETE _ => Some ("DELETE", "/video/<int:video_id>")
  | GET_metrics => Some ("GET", "/metrics")
  end.

(** The labels of the histogram child that the timer of the method of a
    request observes, if the method has a timer. *)
Definition timed_under (r : request) : option (string * string) :=
  match r with
  | GET _ => None
  | PUT _ _ => Some ("PUT", "/video/<int:video_id}")
  | PATCH _ _ => Some ("PATCH", "/video/<int:video_id}")
  | DELETE _ => Some ("DELETE", "/video/<int:video_id}")
  | GET_metrics => Some ("GET", "/metrics")
  end.


(** An argument over two partial updates in a row: the later update wins
    where it gives the argument. *)
Definition later {A : Type} (new old : option A) : option A :=
  match new with
  | Some x => Some x
  | None => old
  end.

(** The answer to an id without a row. *)
Definition not_found (video_id : Z) : response :=
  {| body_of := Json (JObj [("message",
                  JStr ("No se encontró un video con el ID " +:+ pretty video_id))]);
     status := 404 |}.

(** * Properties *)

(** Trying the handlers on the example of the spec. *)
Example example_put :
  (handle (PUT 1 (body_with (Some "a") (Some 0) (Some 0))) 7 initial).1
  = {| body_of := Json (JObj [("id", JInt 1); ("name", JStr "a");
                              ("views", JInt 0); ("likes", JInt 0)]);
       status := 201 |}.
Proof. vm_compute. reflexivity. Qed.

(** ** The table as a list of rows *)

Lemma has_id_true video_id v : has_id video_id v = true ↔ VideoModel.id v = video_id.
Proof. unfold has_id. apply Z.eqb_eq. Qed.

Lemma has_id_false video_id v : has_id video_id v = false ↔ VideoModel.id v ≠ video_id.
Proof. unfold has_id. apply Z.eqb_neq. Qed.

Lemma find_has_id_Some rows video_id v :
  find (has_id video_id) rows = Some v → v ∈ rows ∧ VideoModel.id v = video_id.
Proof.
  intros H. apply find_some in H as [Hin Hid].
  split; [by apply list_elem_of_In | by apply has_id_true].
Qed.

Lemma find_has_id_None rows video_id :
  find (has_id video_id) rows = None ↔ ∀ v, v ∈ rows → VideoModel.id v ≠ video_id.
Proof.
  induction rows as [|r rows IH]; simpl.
  - split; [intros _ v Hv; by apply elem_of_nil in Hv | done].
  - destruct (has_id video_id r) eqn:E.
    + split; [done |]. intros H. apply has_id_true in E.
      exfalso. apply (H r); [left | done].
    + rewrite IH. apply has_id_false in E. split.
      * intros H v Hv. apply elem_of_cons in Hv as [-> | Hv]; auto.
      * intros H v Hv. apply H. by right.
Qed.

Lemma find_has_id_is_Some rows video_id v :
  v ∈ rows → VideoModel.id v = video_id → is_Some (find (has_id video_id) rows).
Proof.
  intros Hin Hid. destruct (find (has_id video_id) rows) eqn:E; [by eexists |].
  exfalso. eapply find_has_id_None in E; eauto.
Qed.

(** A fresh row at the end is found when no earlier row has its key. *)
Lemma find_has_id_snoc rows video_id v :
  find (has_id video_id) rows = None →
  find (has_id video_id) (rows ++ [v]) = if has_id video_id v then Some v else None.
Proof.
  induction rows as [|r rows IH]; simpl; [done |].
  destruct (has_id video_id r); [done | exact IH].
Qed.

(** After the rows with a key are filtered out, no row has it. *)
Lemma find_has_id_filter_out rows video_id :
  find (has_id video_id) (List.filter (λ r, negb (has_id video_id r)) rows) = None.
Proof.
  induction rows as [|r rows IH]; simpl; [done |].
  destruct (has_id video_id r) eqn:E; simpl; [exact IH | by rewrite E].
Qed.

(** A row-wise change that keeps the keys commutes with the lookup. *)
Lemma find_has_id_map rows video_id (g : VideoModel.t → VideoModel.t) :
  (∀ r, VideoModel.id (g r) = VideoModel.id r) →
  find (has_id video_id) (map g rows) = g <$> find (has_id video_id) rows.
Proof.
  intros Hg. induction rows as [|r rows IH]; simpl; [done |].
  unfold has_id at 1. rewrite Hg. fold (has_id video_id r).
  destruct (has_id video_id r); [done | exact IH].
Qed.

(** Unfolding a handler down to the operations on the world. *)
Ltac unfold_handler :=
  unfold handle, respond, Video.get, Video.put, Video.patch, Video.delete,
    Video.Metrics.get, marshal_with, abort_if_video_doesnt_exist,
    video_put_args, video_update_args, required_argument, optional_argument,
    time, inc, abort, query_get, query_filter_by_id_first, session_add,
    session_delete, session_commit, setattr, body_with, arg,
    mbind, mret, handler_bind, handler_ret;
  cbn [b_name b_views b_likes db request_counter response_histogram fst snd].

(** ** Creation on a taken id *)

(** C1. When a row with the id is in the table, a create with all three
    arguments answers 409 with the message that names the id, and the table
    is the one before: every row as it was, none added. *)
Theorem put_existing_conflict w video_id name views likes elapsed v :
  v ∈ db w → VideoModel.id v = video_id →
  (handle (PUT video_id (body_with (Some name) (Some views) (Some likes))) elapsed w).1
  = {| body_of := Json (JObj [("message",
                   JStr ("Ya existe un video con el ID " +:+ pretty video_id))]);
       status := 409 |}
  ∧ db (handle (PUT video_id (body_with (Some name) (Some views) (Some likes))) elapsed w).2
    = db w.
Proof.
  intros Hin Hid.
  destruct (find_has_id_is_Some _ _ _ Hin Hid) as [existing Hex].
  unfold_handler. rewrite Hex. split; reflexivity.
Qed.

Lemma put_existing_conflict_witness :
  (VideoModel.Make 1 "a" 0 0 ∈ db one_video ∧ VideoModel.id (VideoModel.Make 1 "a" 0 0) = 1)
  ∧ (handle (PUT 1 (body_with (Some "b") (Some 5) (Some 6))) 3%N one_video).1
    = {| body_of := Json (JObj [("message", JStr "Ya existe un video con el ID 1")]);
         status := 409 |}
  ∧ db (handle (PUT 1 (body_with (Some "b") (Some 5) (Some 6))) 3%N one_video).2
    = [VideoModel.Make 1 "a" 0 0].
Proof.
  split; [split; [left | reflexivity] |].
  apply (put_existing_conflict one_video 1 "b" 5 6 3%N (VideoModel.Make 1 "a" 0 0));
    [left | reflexivity].
Defined.

(** ** Partial update *)

Lemma merged_nothing v : merged None None None v = v.
Proof. by destruct v. Qed.

(** An update that carries only [views] changes only [views]. *)
Lemma merged_views_only x v :
  merged None (Some x) None v
  = {| VideoModel.id := VideoModel.id v; VideoModel.name := VideoModel.name v;
       VideoModel.views := x; VideoModel.likes := VideoModel.likes v |}.
Proof. reflexivity. Qed.

(** The table after a partial update of an id that has a row, on a body
    whose arguments are given or missing. *)
Lemma patch_present_db w video_id name views likes elapsed v :
  row_of w video_id = Some v →
  db (handle (PATCH video_id (body_with name views likes)) elapsed w).2
  = map (λ r, if has_id video_id r then merged name views likes r else r) (db w).
Proof.
  unfold row_of. intros Hv.
  destruct (find_has_id_Some _ _ _ Hv) as [_ Hid].
  unfold_handler. rewrite Hv. subst video_id.
  destruct name, views, likes; cbn; rewrite ?map_map.
  8: rewrite <- (List.map_id (db w)) at 1.
  all: apply List.map_ext; intros r;
    unfold has_id, VideoModel.set_name, VideoModel.set_views, VideoModel.set_likes;
    cbn; destruct (VideoModel.id r =? VideoModel.id v) eqn:E;
    repeat (cbn; rewrite E); try reflexivity.
  symmetry. apply merged_nothing.
Qed.

(** C2. On an existing record a partial update answers 200 with the merged
    record: the given arguments over the fields they name, the other fields
    as before. The table holds the merged record under the id, and every
    row with another id is as it was. *)
Theorem patch_existing_merges w video_id name views likes elapsed v :
  row_of w video_id = Some v →
  (handle (PATCH video_id (body_with name views likes)) elapsed w).1
  = {| body_of := Json (marshal (merged name views likes v)); status := 200 |}
  ∧ row_of (handle (PATCH video_id (body_with name views likes)) elapsed w).2 video_id
    = Some (merged name views likes v)
  ∧ db (handle (PATCH video_id (body_with name views likes)) elapsed w).2
    = map (λ r, if has_id video_id r then merged name views likes r else r) (db w).
Proof.
  intros Hv. pose proof (patch_present_db w video_id name views likes elapsed v Hv) as Hdb.
  unfold row_of in *. destruct (find_has_id_Some _ _ _ Hv) as [_ Hid].
  split; [| split; [| exact Hdb]].
  - unfold_handler. rewrite Hv. destruct name, views, likes; reflexivity.
  - rewrite Hdb, find_has_id_map.
    + rewrite Hv. cbn. subst video_id. unfold has_id. by rewrite Z.eqb_refl.
    + intros r. by destruct (has_id video_id r).
Qed.

Lemma patch_existing_merges_witness :
  row_of one_video 1 = Some (VideoModel.Make 1 "a" 0 0)
  ∧ (handle (PATCH 1 (body_with None (Some 9) None)) 4%N one_video).1
    = {| body_of := Json (JObj [("id", JInt 1); ("name", JStr "a");
                                ("views", JInt 9); ("likes", JInt 0)]);
         status := 200 |}
  ∧ row_of (handle (PATCH 1 (body_with None (Some 9) None)) 4%N one_video).2 1
    = Some (VideoModel.Make 1 "a" 9 0)
  ∧ db (handle (PATCH 1 (body_with None (Some 9) None)) 4%N one_video).2
    = [VideoModel.Make 1 "a" 9 0].
Proof.
  split; [reflexivity |].
  apply (patch_existing_merges one_video 1 None (Some 9) None 4%N
           (VideoModel.Make 1 "a" 0 0)).
  reflexivity.
Defined.

(** ** Creation, then fetch *)

(** C3. On a free id a create answers 201 with the new record, and a fetch
    of the id right after it answers 200 with the id and the three
    arguments of the create. *)
Theorem put_then_get w video_id name views likes e1 e2 :
  row_of w video_id = None →
  (handle (PUT video_id (body_with (Some name) (Some views) (Some likes))) e1 w).1
  = {| body_of := Json (JObj [("id", JInt video_id); ("name", JStr name);
                              ("views", JInt views); ("likes", JInt likes)]);
       status := 201 |}
  ∧ (handle (GET video_id) e2
       (handle (PUT video_id (body_with (Some name) (Some views) (Some likes))) e1 w).2).1
    = {| body_of := Json (JObj [("id", JInt video_id); ("name", JStr name);
                                ("views", JInt views); ("likes", JInt likes)]);
         status := 200 |}.
Proof.
  unfold row_of. intros Hfree. unfold_handler. rewrite Hfree. cbn.
  split; [reflexivity |].
  rewrite (find_has_id_snoc _ _ _ Hfree).
  unfold has_id. cbn. by rewrite Z.eqb_refl.
Qed.

Lemma put_then_get_witness :
  row_of one_video 2 = None
  ∧ (handle (PUT 2 (body_with (Some "b") (Some 5) (Some 6))) 3%N one_video).1
    = {| body_of := Json (JObj [("id", JInt 2); ("name", JStr "b");
                                ("views", JInt 5); ("likes", JInt 6)]);
         status := 201 |}
  ∧ (handle (GET 2) 8%N
       (handle (PUT 2 (body_with (Some "b") (Some 5) (Some 6))) 3%N one_video).2).1
    = {| body_of := Json (JObj [("id", JInt 2); ("name", JStr "b");
                                ("views", JInt 5); ("likes", JInt 6)]);
         status := 200 |}.
Proof.
  split; [reflexivity |].
  apply (put_then_get one_video 2 "b" 5 6 3%N 8%N). reflexivity.
Defined.

(** ** Fetch *)

(** C4. When no row has the id, a fetch answers 404 with the message that
    names the id and leaves the whole world as it was; when the id has a
    row, the fetch answers 200 with the four fields of that row. *)
Theorem get_absent_or_present w video_id elapsed :
  ((∀ v, v ∈ db w → VideoModel.id v ≠ video_id) →
   handle (GET video_id) elapsed w
   = ({| body_of := Json (JObj [("message",
                      JStr ("No se encontró un video con el ID " +:+ pretty video_id))]);
         status := 404 |}, w))
  ∧ (∀ v, row_of w video_id = Some v →
     handle (GET video_id) elapsed w
     = ({| body_of := Json (JObj [("id", JInt (VideoModel.id v));
                                  ("name", JStr (VideoModel.name v));
                                  ("views", JInt (VideoModel.views v));
                                  ("likes", JInt (VideoModel.likes v))]);
           status := 200 |}, w)).
Proof.
  split.
  - intros Habsent. apply find_has_id_None in Habsent.
    unfold_handler. by rewrite Habsent.
  - unfold row_of. intros v Hv. unfold_handler. by rewrite Hv.
Qed.

Lemma get_absent_or_present_witness :
  ((∀ v, v ∈ db one_video → VideoModel.id v ≠ 2)
   ∧ handle (GET 2) 5%N one_video
     = ({| body_of := Json (JObj [("message", JStr "No se encontró un video con el ID 2")]);
           status := 404 |}, one_video))
  ∧ (row_of one_video 1 = Some (VideoModel.Make 1 "a" 0 0)
     ∧ handle (GET 1) 5%N one_video
       = ({| body_of := Json (JObj [("id", JInt 1); ("name", JStr "a");
                                    ("views", JInt 0); ("likes", JInt 0)]);
             status := 200 |}, one_video)).
Proof.
  assert (Hfree : ∀ v, v ∈ db one_video → VideoModel.id v ≠ 2).
  { intros v Hv. apply list_elem_of_singleton in Hv. subst v. cbn. lia. }
  split; split; [exact Hfree | | reflexivity |].
  - apply (proj1 (get_absent_or_present one_video 2 5%N)). exact Hfree.
  - apply (proj2 (get_absent_or_present one_video 1 5%N) (VideoModel.Make 1 "a" 0 0)).
    reflexivity.
Defined.

(** ** Deletion *)

(** C5. When the id has a row, a delete answers the message that names the
    id with the code 204, the rows with the id are gone and the others are
    kept, and a fetch of the id right after it answers 404. When no row has
    the id, the delete answers 404 and the table is as it was. *)
Theorem delete_present_or_absent w video_id elapsed e2 :
  (∀ v, row_of w video_id = Some v →
     (handle (DELETE video_id) elapsed w).1
     = {| body_of := Json (JObj [("message",
                        JStr ("Video con id " +:+ pretty video_id +:+ " eliminado"))]);
          status := 204 |}
     ∧ db (handle (DELETE video_id) elapsed w).2
       = List.filter (λ r, negb (has_id video_id r)) (db w)
     ∧ (handle (GET video_id) e2 (handle (DELETE video_id) elapsed w).2).1
       = {| body_of := Json (JObj [("message",
                          JStr ("No se encontró un video con el ID " +:+ pretty video_id))]);
            status := 404 |})
  ∧ ((∀ v, v ∈ db w → VideoModel.id v ≠ video_id) →
     (handle (DELETE video_id) elapsed w).1
     = {| body_of := Json (JObj [("message",
                        JStr ("No se encontró un video con el ID " +:+ pretty video_id))]);
          status := 404 |}
     ∧ db (handle (DELETE video_id) elapsed w).2 = db w).
Proof.
  split.
  - unfold row_of. intros v Hv.
    destruct (find_has_id_Some _ _ _ Hv) as [_ Hid].
    unfold_handler. rewrite Hv. cbn. rewrite Hid.
    rewrite find_has_id_filter_out. done.
  - intros Habsent. apply find_has_id_None in Habsent.
    unfold_handler. by rewrite Habsent.
Qed.

Lemma delete_present_or_absent_witness :
  (row_of one_video 1 = Some (VideoModel.Make 1 "a" 0 0)
   ∧ (handle (DELETE 1) 6%N one_video).1
     = {| body_of := Json (JObj [("message", JStr "Video con id 1 eliminado")]);
          status := 204 |}
   ∧ db (handle (DELETE 1) 6%N one_video).2 = []
   ∧ (handle (GET 1) 2%N (handle (DELETE 1) 6%N one_video).2).1
     = {| body_of := Json (JObj [("message", JStr "No se encontró un video con el ID 1")]);
          status := 404 |})
  ∧ ((∀ v, v ∈ db one_video → VideoModel.id v ≠ 2)
     ∧ (handle (DELETE 2) 6%N one_video).1
       = {| body_of := Json (JObj [("message", JStr "No se encontró un video con el ID 2")]);
            status := 404 |}
     ∧ db (handle (DELETE 2) 6%N one_video).2 = [VideoModel.Make 1 "a" 0 0]).
Proof.
  assert (Hfree : ∀ v, v ∈ db one_video → VideoModel.id v ≠ 2).
  { intros v Hv. apply list_elem_of_singleton in Hv. subst v. cbn. lia. }
  split; split; [reflexivity | | exact Hfree |].
  - apply (proj1 (delete_present_or_absent one_video 1 6%N 2%N)
             (VideoModel.Make 1 "a" 0 0)).
    reflexivity.
  - apply (proj2 (delete_present_or_absent one_video 2 6%N 2%N)). exact Hfree.
Defined.

(** ** Validation of the body of a create *)

Lemma missing_first_failing b a : missing b a → is_Some (first_failing b).
Proof.
  unfold missing, first_failing.
  destruct b as [[| |n] [| |v] [| |l]], a; cbn; intros H; try discriminate H; by eexists.
Qed.

Lemma first_failing_not_given b a :
  first_failing b = Some a → on_argument (@is_given) b a = false.
Proof.
  unfold first_failing.
  destruct b as [[| |n] [| |v] [| |l]]; cbn; intros H; inversion H; reflexivity.
Qed.

(** A create whose body fails on [a] answers the validation error of [a]
    and does not touch the table, whatever the table holds. *)
Lemma put_first_failing w video_id b elapsed a :
  first_failing b = Some a →
  (handle (PUT video_id b) elapsed w).1 = validation_error a
  ∧ db (handle (PUT video_id b) elapsed w).2 = db w.
Proof.
  unfold first_failing.
  destruct b as [[| |n] [| |v] [| |l]]; cbn; intros H; inversion H; subst a;
    split; reflexivity.
Qed.

(** A body with [views] that does not convert and without [likes]: the
    answer is under the name of [views], which is not missing. *)
Lemma put_names_ill_typed_argument :
  (handle (PUT 1 {| b_name := Given "a"; b_views := Invalid; b_likes := Absent |})
     3%N initial).1
  = {| body_of := Json (JObj [("message", JObj [("views", JStr "Número de vistas del video")])]);
       status := 400 |}
  ∧ ¬ names_a_missing_argument initial 1
        {| b_name := Given "a"; b_views := Invalid; b_likes := Absent |} 3%N.
Proof.
  split; [reflexivity |].
  intros H. destruct H as [a (Hmiss & Hresp & _)]; [by exists likes_arg |].
  destruct a; [discriminate Hmiss | discriminate Hmiss | discriminate Hresp].
Qed.

(** C6, amended. A create whose body misses an argument answers 400 with
    the help of the first argument, in the order name, views, likes, that
    is missing or does not convert, under the name of that argument; the
    table is kept. When no argument of the body is ill-typed, the argument
    named is a missing one. *)
Theorem put_missing_argument w video_id b elapsed :
  (∃ a, missing b a) →
  ∃ a, first_failing b = Some a
       ∧ (handle (PUT video_id b) elapsed w).1
         = {| body_of := Json (JObj [("message", JObj [(key a, JStr (put_help a))])]);
              status := 400 |}
       ∧ db (handle (PUT video_id b) elapsed w).2 = db w
       ∧ ((∀ a', ¬ ill_typed b a') → missing b a).
Proof.
  intros [a0 Hmiss]. destruct (missing_first_failing _ _ Hmiss) as [a Ha].
  exists a. destruct (put_first_failing w video_id b elapsed a Ha) as [Hr Hdb].
  repeat split; [exact Ha | exact Hr | exact Hdb |].
  intros Hwell. apply first_failing_not_given in Ha.
  unfold missing, ill_typed in *.
  destruct a; cbn in *.
  - specialize (Hwell name_arg). cbn in Hwell. by destruct (b_name b).
  - specialize (Hwell views_arg). cbn in Hwell. by destruct (b_views b).
  - specialize (Hwell likes_arg). cbn in Hwell. by destruct (b_likes b).
Qed.

Lemma put_missing_argument_witness :
  (∃ a, missing (body_with (Some "b") None (Some 6)) a)
  ∧ ∃ a, first_failing (body_with (Some "b") None (Some 6)) = Some a
         ∧ (handle (PUT 2 (body_with (Some "b") None (Some 6))) 3%N one_video).1
           = {| body_of := Json (JObj [("message", JObj [(key a, JStr (put_help a))])]);
                status := 400 |}
         ∧ db (handle (PUT 2 (body_with (Some "b") None (Some 6))) 3%N one_video).2
           = db one_video
         ∧ ((∀ a', ¬ ill_typed (body_with (Some "b") None (Some 6)) a')
            → missing (body_with (Some "b") None (Some 6)) a).
Proof.
  split; [exists views_arg; reflexivity |].
  apply (put_missing_argument one_video 2 (body_with (Some "b") None (Some 6)) 3%N).
  exists views_arg. reflexivity.
Defined.

(** C9. In a create the body is parsed before the table is looked at: a
    body that misses an argument is answered with 400, also when the id
    has a row (where a complete body would be answered with 409), and the
    table is kept. *)
Theorem put_validation_before_conflict w video_id b elapsed v :
  (∃ a, missing b a) →
  v ∈ db w → VideoModel.id v = video_id →
  status (handle (PUT video_id b) elapsed w).1 = 400
  ∧ (∃ a, (handle (PUT video_id b) elapsed w).1 = validation_error a)
  ∧ db (handle (PUT video_id b) elapsed w).2 = db w.
Proof.
  intros [a0 Hmiss] _ _. destruct (missing_first_failing _ _ Hmiss) as [a Ha].
  destruct (put_first_failing w video_id b elapsed a Ha) as [Hr Hdb].
  rewrite Hr. repeat split; [by exists a | exact Hdb].
Qed.

Lemma put_validation_before_conflict_witness :
  ((∃ a, missing (body_with (Some "b") (Some 5) None) a)
   ∧ VideoModel.Make 1 "a" 0 0 ∈ db one_video
   ∧ VideoModel.id (VideoModel.Make 1 "a" 0 0) = 1)
  ∧ status (handle (PUT 1 (body_with (Some "b") (Some 5) None)) 3%N one_video).1 = 400
  ∧ (∃ a, (handle (PUT 1 (body_with (Some "b") (Some 5) None)) 3%N one_video).1
          = validation_error a)
  ∧ db (handle (PUT 1 (body_with (Some "b") (Some 5) None)) 3%N one_video).2
    = [VideoModel.Make 1 "a" 0 0].
Proof.
  split; [split; [exists likes_arg; reflexivity | split; [left | reflexivity]] |].
  apply (put_validation_before_conflict one_video 1 (body_with (Some "b") (Some 5) None)
           3%N (VideoModel.Make 1 "a" 0 0));
    [exists likes_arg; reflexivity | left | reflexivity].
Defined.

(** ** Partial update of an id without a row *)

(** C10. In a partial update the row is looked up before the body is
    parsed: when no row has the id the answer is 404 with the message that
    names the id, whatever the body carries (arguments that do not convert
    included), and the table is kept. *)
Theorem patch_absent_not_found w video_id b elapsed :
  (∀ v, v ∈ db w → VideoModel.id v ≠ video_id) →
  (handle (PATCH video_id b) elapsed w).1
  = {| body_of := Json (JObj [("message",
                   JStr ("No se encontró un video con el ID " +:+ pretty video_id))]);
       status := 404 |}
  ∧ db (handle (PATCH video_id b) elapsed w).2 = db w.
Proof.
  intros Habsent. apply find_has_id_None in Habsent.
  unfold_handler. by rewrite Habsent.
Qed.

Lemma patch_absent_not_found_witness :
  (∀ v, v ∈ db one_video → VideoModel.id v ≠ 2)
  ∧ (handle (PATCH 2 {| b_name := Given "b"; b_views := Invalid; b_likes := Absent |})
       3%N one_video).1
    = {| body_of := Json (JObj [("message", JStr "No se encontró un video con el ID 2")]);
         status := 404 |}
  ∧ db (handle (PATCH 2 {| b_name := Given "b"; b_views := Invalid; b_likes := Absent |})
          3%N one_video).2
    = [VideoModel.Make 1 "a" 0 0].
Proof.
  assert (Hfree : ∀ v, v ∈ db one_video → VideoModel.id v ≠ 2).
  { intros v Hv. apply list_elem_of_singleton in Hv. subst v. cbn. lia. }
  split; [exact Hfree |].
  apply (patch_absent_not_found one_video 2
           {| b_name := Given "b"; b_views := Invalid; b_likes := Absent |} 3%N).
  exact Hfree.
Defined.

(** ** The metrics of a request *)

Lemma put_metrics w video_id b elapsed :
  request_counter (handle (PUT video_id b) elapsed w).2
  = <[("PUT", "/video/<int:video_id>") := S (counter_value w "PUT" "/video/<int:video_id>")]>
      (request_counter w)
  ∧ response_histogram (handle (PUT video_id b) elapsed w).2
    = <[("PUT", "/video/<int:video_id}") :=
          observations w "PUT" "/video/<int:video_id}" ++ [elapsed]]>
        (response_histogram w).
Proof.
  unfold_handler.
  destruct b as [[| |n] [| |v] [| |l]]; cbn; try (split; reflexivity).
  destruct (find (has_id video_id) (db w)); split; reflexivity.
Qed.

Lemma patch_metrics w video_id b elapsed :
  request_counter (handle (PATCH video_id b) elapsed w).2
  = <[("PATCH", "/video/<int:video_id>") := S (counter_value w "PATCH" "/video/<int:video_id>")]>
      (request_counter w)
  ∧ response_histogram (handle (PATCH video_id b) elapsed w).2
    = <[("PATCH", "/video/<int:video_id}") :=
          observations w "PATCH" "/video/<int:video_id}" ++ [elapsed]]>
        (response_histogram w).
Proof.
  unfold_handler.
  destruct (find (has_id video_id) (db w)); [| split; reflexivity].
  destruct b as [[| |n] [| |v] [| |l]]; split; reflexivity.
Qed.

Lemma delete_metrics w video_id elapsed :
  request_counter (handle (DELETE video_id) elapsed w).2
  = <[("DELETE", "/video/<int:video_id>") := S (counter_value w "DELETE" "/video/<int:video_id>")]>
      (request_counter w)
  ∧ response_histogram (handle (DELETE video_id) elapsed w).2
    = <[("DELETE", "/video/<int:video_id}") :=
          observations w "DELETE" "/video/<int:video_id}" ++ [elapsed]]>
        (response_histogram w).
Proof.
  unfold_handler.
  destruct (find (has_id video_id) (db w)); split; reflexivity.
Qed.

Lemma get_world w video_id elapsed : (handle (GET video_id) elapsed w).2 = w.
Proof.
  unfold_handler. by destruct (find (has_id video_id) (db w)).
Qed.

(** C7. The metrics the handlers keep, against the claim that each of the
    four operations counts the request and times it under the same key: a
    fetch touches neither metric, and the three other operations time the
    request under an endpoint label that is not the one they count it
    under. Only the metrics resource uses one key for both. *)
Theorem metrics_of_requests r elapsed w : metrics_effect r elapsed w.
Proof.
  unfold metrics_effect, counter_value, observations.
  destruct r as [k | k b | k b | k |]; cbn [method_of].
  - apply get_world.
  - destruct (put_metrics w k b elapsed) as [-> ->].
    rewrite lookup_insert_eq, lookup_insert_ne by (intros [=]).
    by rewrite lookup_insert_eq.
  - destruct (patch_metrics w k b elapsed) as [-> ->].
    rewrite lookup_insert_eq, lookup_insert_ne by (intros [=]).
    by rewrite lookup_insert_eq.
  - destruct (delete_metrics w k elapsed) as [-> ->].
    rewrite lookup_insert_eq, lookup_insert_ne by (intros [=]).
    by rewrite lookup_insert_eq.
  - unfold_handler. cbn. by rewrite !lookup_insert_eq.
Qed.

(** The two failing requests on a fresh process: the fetch is not counted,
    and the create is counted under one label and timed under another. *)
Example metrics_of_requests_initial :
  counter_value (handle (GET 1) 3%N initial).2 "GET" "/video/<int:video_id>" = 0%nat
  ∧ observations (handle (GET 1) 3%N initial).2 "GET" "/video/<int:video_id>" = []
  ∧ counter_value (handle (PUT 1 (body_with (Some "a") (Some 0) (Some 0))) 3%N initial).2
      "PUT" "/video/<int:video_id>" = 1%nat
  ∧ observations (handle (PUT 1 (body_with (Some "a") (Some 0) (Some 0))) 3%N initial).2
      "PUT" "/video/<int:video_id>" = []
  ∧ observations (handle (PUT 1 (body_with (Some "a") (Some 0) (Some 0))) 3%N initial).2
      "PUT" "/video/<int:video_id}" = [3%N].
Proof. vm_compute. repeat split; reflexivity. Qed.

(** ** The ids of the rows *)

(** The table after a partial update: as before when the request is
    refused, else with the given arguments merged into the rows of the
    id. *)
Lemma patch_db w video_id b elapsed :
  db (handle (PATCH video_id b) elapsed w).2 = db w
  ∨ ∃ name views likes,
      b = body_with name views likes
      ∧ db (handle (PATCH video_id b) elapsed w).2
        = map (λ r, if has_id video_id r then merged name views likes r else r) (db w).
Proof.
  destruct (find (has_id video_id) (db w)) as [v|] eqn:Hv.
  - destruct (is_invalid (b_name b) || is_invalid (b_views b) || is_invalid (b_likes b))
      eqn:Hbad.
    + left. unfold_handler. rewrite Hv.
      destruct b as [[| |n] [| |vw] [| |l]]; try discriminate Hbad; reflexivity.
    + right.
      assert (∃ name views likes, b = body_with name views likes)
        as (name & views & likes & ->).
      { destruct b as [[| |n] [| |vw] [| |l]]; try discriminate Hbad.
        - by exists None, None, None.
        - by exists None, None, (Some l).
        - by exists None, (Some vw), None.
        - by exists None, (Some vw), (Some l).
        - by exists (Some n), None, None.
        - by exists (Some n), None, (Some l).
        - by exists (Some n), (Some vw), None.
        - by exists (Some n), (Some vw), (Some l). }
      exists name, views, likes. split; [reflexivity |].
      by apply patch_present_db with v.
  - left. unfold_handler. by rewrite Hv.
Qed.

Lemma put_db w video_id b elapsed :
  db (handle (PUT video_id b) elapsed w).2 = db w
  ∨ (row_of w video_id = None
     ∧ ∃ name views likes,
         db (handle (PUT video_id b) elapsed w).2
         = db w ++ [VideoModel.Make video_id name views likes]).
Proof.
  unfold row_of. unfold_handler.
  destruct b as [[| |n] [| |vw] [| |l]]; cbn; try (left; reflexivity).
  destruct (find (has_id video_id) (db w)) eqn:Hv; [left; reflexivity |].
  right. split; [reflexivity |]. by exists n, vw, l.
Qed.

Lemma delete_db w video_id elapsed :
  db (handle (DELETE video_id) elapsed w).2
  = List.filter (λ r, negb (has_id video_id r)) (db w).
Proof.
  unfold_handler. destruct (find (has_id video_id) (db w)) as [v|] eqn:Hv; cbn.
  - destruct (find_has_id_Some _ _ _ Hv) as [_ Hid]. by rewrite Hid.
  - symmetry. apply forallb_filter_id. apply forallb_forall.
    intros r Hr. apply negb_true_iff, has_id_false.
    eapply find_has_id_None; [exact Hv | by apply list_elem_of_In].
Qed.

Lemma metrics_get_db w elapsed : db (handle GET_metrics elapsed w).2 = db w.
Proof. reflexivity. Qed.

Lemma ids_merged rows video_id name views likes :
  map VideoModel.id
    (map (λ r, if has_id video_id r then merged name views likes r else r) rows)
  = map VideoModel.id rows.
Proof.
  rewrite map_map. apply List.map_ext. intros r. by destruct (has_id video_id r).
Qed.

Lemma handle_table_step r elapsed w : table_step r elapsed w.
Proof.
  unfold table_step. destruct r as [k | k b | k b | k |].
  - by rewrite get_world.
  - apply put_db.
  - destruct (patch_db w k b elapsed) as [-> | (n & vw & l & _ & ->)];
      [reflexivity | apply ids_merged].
  - apply delete_db.
  - apply metrics_get_db.
Qed.

Lemma run_snoc rs r elapsed w :
  run (rs ++ [(r, elapsed)]) w = (handle r elapsed (run rs w)).2.
Proof. unfold run. by rewrite foldl_snoc. Qed.

Lemma ids_filter_out rows video_id :
  map VideoModel.id (List.filter (λ v, negb (has_id video_id v)) rows)
  = List.filter (λ k, negb (k =? video_id)) (map VideoModel.id rows).
Proof. by rewrite filter_map_swap. Qed.

(** The invariant of the data model: in a table reached from the empty one
    no two rows have the same id. *)
Lemma ids_unique rs : NoDup (map VideoModel.id (db (run rs initial))).
Proof.
  induction rs as [|[r elapsed] rs IH] using rev_ind; [constructor |].
  rewrite run_snoc. pose proof (handle_table_step r elapsed (run rs initial)) as Hstep.
  unfold table_step in Hstep. cbn zeta in Hstep.
  destruct r as [k | k b | k b | k |].
  - by rewrite Hstep.
  - destruct Hstep as [-> | (Hfree & n & vw & l & ->)]; [done |].
    rewrite map_app. apply NoDup_app. split; [done |]. split; [| apply NoDup_singleton].
    intros i Hi Hk. apply list_elem_of_singleton in Hk. cbn in Hk. subst i.
    apply list_elem_of_fmap in Hi as (v & Hid & Hv).
    eapply find_has_id_None in Hfree; [| exact Hv]. by apply Hfree.
  - by rewrite Hstep.
  - rewrite Hstep, ids_filter_out. apply NoDup_ListNoDup, List.NoDup_filter.
    by apply NoDup_ListNoDup.
  - by rewrite Hstep.
Qed.

(** Every row of a table reached from the empty one has the id of a create
    of the history. *)
Lemma ids_created rs v :
  v ∈ db (run rs initial) → ∃ b elapsed, (PUT (VideoModel.id v) b, elapsed) ∈ rs.
Proof.
  revert v. induction rs as [|[r elapsed] rs IH] using rev_ind; intros v Hv.
  { by apply elem_of_nil in Hv. }
  rewrite run_snoc in Hv.
  pose proof (handle_table_step r elapsed (run rs initial)) as Hstep.
  unfold table_step in Hstep. cbn zeta in Hstep.
  assert (Hold : ∀ v0, v0 ∈ db (run rs initial) → VideoModel.id v0 = VideoModel.id v →
            ∃ b e, (PUT (VideoModel.id v) b, e) ∈ rs ++ [(r, elapsed)]).
  { intros v0 Hv0 Hid. destruct (IH v0 Hv0) as (b & e & Hin).
    exists b, e. rewrite <- Hid. apply elem_of_app. by left. }
  destruct r as [k | k b | k b | k |].
  - rewrite Hstep in Hv. by apply (Hold v).
  - destruct Hstep as [Hsame | (_ & n & vw & l & Hnew)].
    + rewrite Hsame in Hv. by apply (Hold v).
    + rewrite Hnew in Hv. apply elem_of_app in Hv as [Hv | Hv]; [by apply (Hold v) |].
      apply list_elem_of_singleton in Hv. subst v. cbn.
      exists b, elapsed. apply elem_of_app. right. by left.
  - assert (VideoModel.id v ∈ map VideoModel.id (db (run rs initial))) as Hi.
    { rewrite <- Hstep. by apply list_elem_of_fmap_2. }
    apply list_elem_of_fmap in Hi as (v0 & Hid & Hv0). by apply (Hold v0).
  - rewrite Hstep in Hv. apply list_elem_of_In, filter_In in Hv as [Hv _].
    apply (Hold v); [by apply list_elem_of_In | done].
  - rewrite Hstep in Hv. by apply (Hold v).
Qed.

(** C8. No request changes the id of a row. A create either keeps the
    table or adds one row at the end, under the requested id and only when
    no row has it; a delete removes the rows of the id and keeps the
    others; after a partial update, a fetch or a metrics request the rows
    carry, place by place, the ids they carried before. So in every table
    reached from the empty one the ids are pairwise different and each row
    carries the id of the create that inserted it. *)
Theorem id_is_immutable :
  (∀ r elapsed w, table_step r elapsed w)
  ∧ (∀ rs,
       NoDup (map VideoModel.id (db (run rs initial)))
       ∧ ∀ v, v ∈ db (run rs initial) →
              ∃ b elapsed, (PUT (VideoModel.id v) b, elapsed) ∈ rs).
Proof.
  split; [apply handle_table_step |].
  intros rs. split; [apply ids_unique | apply ids_created].
Qed.

Lemma id_is_immutable_witness :
  VideoModel.Make 2 "b" 9 6
    ∈ db (run [(PUT 2 (body_with (Some "b") (Some 5) (Some 6)), 3%N);
               (PATCH 2 (body_with None (Some 9) None), 4%N)] initial)
  ∧ ∃ b elapsed,
      (PUT (VideoModel.id (VideoModel.Make 2 "b" 9 6)) b, elapsed)
        ∈ [(PUT 2 (body_with (Some "b") (Some 5) (Some 6)), 3%N);
           (PATCH 2 (body_with None (Some 9) None), 4%N)].
Proof.
  split; [left |].
  apply (proj2 (proj2 id_is_immutable
                  [(PUT 2 (body_with (Some "b") (Some 5) (Some 6)), 3%N);
                   (PATCH 2 (body_with None (Some 9) None), 4%N)])
           (VideoModel.Make 2 "b" 9 6)).
  left.
Defined.

(** * Further properties of the handlers *)

(** ** Answers and the table do not depend on the metrics *)

Lemma patch_same_table video_id b e1 e2 w1 w2 :
  db w1 = db w2 →
  (handle (PATCH video_id b) e1 w1).1 = (handle (PATCH video_id b) e2 w2).1
  ∧ db (handle (PATCH video_id b) e1 w1).2 = db (handle (PATCH video_id b) e2 w2).2.
Proof.
  intros Hdb. unfold_handler. rewrite Hdb.
  destruct (find (has_id video_id) (db w2)); [| done].
  destruct b as [[| |n] [| |v] [| |l]]; cbn; by rewrite ?Hdb.
Qed.

(** The answer of a video request and the table it leaves are decided by
    the table alone: two worlds with the same rows get the same answer and
    end with the same rows, whatever their counters, histograms and elapsed
    times. *)
Theorem handle_depends_on_table r e1 e2 w1 w2 :
  is_Some (target r) → db w1 = db w2 →
  (handle r e1 w1).1 = (handle r e2 w2).1
  ∧ db (handle r e1 w1).2 = db (handle r e2 w2).2.
Proof.
  intros [k Hk] Hdb. destruct r as [k' | k' b | k' b | k' |]; [| | | | discriminate Hk].
  - unfold_handler. rewrite Hdb.
    by destruct (find (has_id k') (db w2)).
  - unfold_handler. destruct b as [[| |n] [| |v] [| |l]]; cbn; try done.
    rewrite Hdb. by destruct (find (has_id k') (db w2)).
  - by apply patch_same_table.
  - unfold_handler. rewrite Hdb.
    destruct (find (has_id k') (db w2)); cbn; by rewrite ?Hdb.
Qed.

Lemma handle_depends_on_table_witness :
  (is_Some (target (PATCH 1 (body_with None (Some 9) None)))
   ∧ db one_video = db (handle (GET_metrics) 2%N one_video).2)
  ∧ (handle (PATCH 1 (body_with None (Some 9) None)) 4%N one_video).1
    = (handle (PATCH 1 (body_with None (Some 9) None)) 7%N
         (handle (GET_metrics) 2%N one_video).2).1
  ∧ db (handle (PATCH 1 (body_with None (Some 9) None)) 4%N one_video).2
    = db (handle (PATCH 1 (body_with None (Some 9) None)) 7%N
            (handle (GET_metrics) 2%N one_video).2).2.
Proof.
  split; [split; [by eexists | reflexivity] |].
  apply (handle_depends_on_table (PATCH 1 (body_with None (Some 9) None)) 4%N 7%N
           one_video (handle (GET_metrics) 2%N one_video).2);
    [by eexists | reflexivity].
Defined.

(** ** Partial updates, one after the other *)

Lemma patch_present_answer w video_id name views likes elapsed v :
  row_of w video_id = Some v →
  (handle (PATCH video_id (body_with name views likes)) elapsed w).1
  = {| body_of := Json (marshal (merged name views likes v)); status := 200 |}.
Proof.
  unfold row_of. intros Hv. unfold_handler. rewrite Hv.
  destruct name, views, likes; reflexivity.
Qed.

Lemma patch_present_row w video_id name views likes elapsed v :
  row_of w video_id = Some v →
  row_of (handle (PATCH video_id (body_with name views likes)) elapsed w).2 video_id
  = Some (merged name views likes v).
Proof.
  intros Hv. unfold row_of at 1.
  rewrite (patch_present_db _ _ _ _ _ _ _ Hv), find_has_id_map.
  - unfold row_of in Hv. rewrite Hv. cbn.
    destruct (find_has_id_Some _ _ _ Hv) as [_ Hid].
    apply has_id_true in Hid. by rewrite Hid.
  - intros r. by destruct (has_id video_id r).
Qed.

Lemma patch_absent_db w video_id b elapsed :
  row_of w video_id = None →
  (handle (PATCH video_id b) elapsed w).1 = not_found video_id
  ∧ db (handle (PATCH video_id b) elapsed w).2 = db w.
Proof. unfold row_of. intros Hv. unfold_handler. by rewrite Hv. Qed.

Lemma merged_merged n2 v2 l2 n1 v1 l1 r :
  merged n2 v2 l2 (merged n1 v1 l1 r) = merged (later n2 n1) (later v2 v1) (later l2 l1) r.
Proof. by destruct n2, v2, l2. Qed.

Lemma later_same {A : Type} (x : option A) : later x x = x.
Proof. by destruct x. Qed.

Lemma patch_ill_typed_db w video_id b elapsed a :
  first_ill_typed b = Some a →
  db (handle (PATCH video_id b) elapsed w).2 = db w.
Proof.
  unfold first_ill_typed. intros Ha. unfold_handler.
  destruct (find (has_id video_id) (db w)); [| reflexivity].
  destruct b as [[| |n] [| |vw] [| |l]]; cbn in Ha; inversion Ha; reflexivity.
Qed.

(** A partial update whose body carries a value that does not convert is
    refused as a whole: the answer is 400 with the help of the first such
    argument under its name, and no field is assigned, not even from the
    arguments of the body that are well-formed. *)
Theorem patch_ill_typed_rejected w video_id b elapsed v a :
  row_of w video_id = Some v → first_ill_typed b = Some a →
  (handle (PATCH video_id b) elapsed w).1
  = {| body_of := Json (JObj [("message", JObj [(key a, JStr (update_help a))])]);
       status := 400 |}
  ∧ db (handle (PATCH video_id b) elapsed w).2 = db w.
Proof.
  unfold row_of, first_ill_typed. intros Hv Ha. unfold_handler. rewrite Hv.
  destruct b as [[| |n] [| |vw] [| |l]]; cbn in Ha; inversion Ha; subst a;
    split; reflexivity.
Qed.

Lemma patch_ill_typed_rejected_witness :
  (row_of one_video 1 = Some (VideoModel.Make 1 "a" 0 0)
   ∧ first_ill_typed {| b_name := Given "b"; b_views := Invalid; b_likes := Given 4 |}
     = Some views_arg)
  ∧ (handle (PATCH 1 {| b_name := Given "b"; b_views := Invalid; b_likes := Given 4 |})
       3%N one_video).1
    = {| body_of := Json (JObj [("message", JObj [("views", JStr "Número de vistas del video")])]);
         status := 400 |}
  ∧ db (handle (PATCH 1 {| b_name := Given "b"; b_views := Invalid; b_likes := Given 4 |})
          3%N one_video).2
    = [VideoModel.Make 1 "a" 0 0].
Proof.
  split; [split; reflexivity |].
  apply (patch_ill_typed_rejected one_video 1
           {| b_name := Given "b"; b_views := Invalid; b_likes := Given 4 |} 3%N
           (VideoModel.Make 1 "a" 0 0) views_arg); reflexivity.
Defined.

(** Two partial updates of an existing record, one after the other, leave
    the table a single update with the arguments of both leaves, the later
    update winning where both give an argument; the second answer is the
    record merged that way. *)
Theorem patch_then_patch w video_id n1 v1 l1 n2 v2 l2 e1 e2 e v :
  row_of w video_id = Some v →
  (handle (PATCH video_id (body_with n2 v2 l2)) e2
     (handle (PATCH video_id (body_with n1 v1 l1)) e1 w).2).1
  = {| body_of := Json (marshal (merged (later n2 n1) (later v2 v1) (later l2 l1) v));
       status := 200 |}
  ∧ db (handle (PATCH video_id (body_with n2 v2 l2)) e2
          (handle (PATCH video_id (body_with n1 v1 l1)) e1 w).2).2
    = db (handle (PATCH video_id (body_with (later n2 n1) (later v2 v1) (later l2 l1))) e w).2.
Proof.
  intros Hv.
  pose proof (patch_present_row w video_id n1 v1 l1 e1 v Hv) as Hv1.
  split.
  - rewrite (patch_present_answer _ _ _ _ _ _ _ Hv1). by rewrite merged_merged.
  - rewrite (patch_present_db _ _ _ _ _ _ _ Hv1), (patch_present_db _ _ _ _ _ _ _ Hv),
      (patch_present_db _ _ _ _ _ _ _ Hv).
    rewrite map_map. apply List.map_ext. intros r.
    destruct (has_id video_id r) eqn:E.
    + assert (has_id video_id (merged n1 v1 l1 r) = true) as -> by exact E.
      apply merged_merged.
    + by rewrite E.
Qed.

Lemma patch_then_patch_witness :
  row_of one_video 1 = Some (VideoModel.Make 1 "a" 0 0)
  ∧ (handle (PATCH 1 (body_with None (Some 7) (Some 5))) 2%N
       (handle (PATCH 1 (body_with (Some "b") (Some 9) None)) 3%N one_video).2).1
    = {| body_of := Json (JObj [("id", JInt 1); ("name", JStr "b");
                                ("views", JInt 7); ("likes", JInt 5)]);
         status := 200 |}
  ∧ db (handle (PATCH 1 (body_with None (Some 7) (Some 5))) 2%N
          (handle (PATCH 1 (body_with (Some "b") (Some 9) None)) 3%N one_video).2).2
    = db (handle (PATCH 1 (body_with (Some "b") (Some 7) (Some 5))) 4%N one_video).2.
Proof.
  split; [reflexivity |].
  apply (patch_then_patch one_video 1 (Some "b") (Some 9) None None (Some 7) (Some 5)
           3%N 2%N 4%N (VideoModel.Make 1 "a" 0 0)).
  reflexivity.
Defined.

(** A partial update is idempotent: the same request a second time gets
    the answer of the first and leaves the table the first left, for every
    body and whether or not the id has a row. *)
Theorem patch_idempotent w video_id b e1 e2 :
  (handle (PATCH video_id b) e2 (handle (PATCH video_id b) e1 w).2).1
  = (handle (PATCH video_id b) e1 w).1
  ∧ db (handle (PATCH video_id b) e2 (handle (PATCH video_id b) e1 w).2).2
    = db (handle (PATCH video_id b) e1 w).2.
Proof.
  assert (Hrefused : db (handle (PATCH video_id b) e1 w).2 = db w →
    (handle (PATCH video_id b) e2 (handle (PATCH video_id b) e1 w).2).1
    = (handle (PATCH video_id b) e1 w).1
    ∧ db (handle (PATCH video_id b) e2 (handle (PATCH video_id b) e1 w).2).2
      = db (handle (PATCH video_id b) e1 w).2).
  { intros Hdb. by apply patch_same_table. }
  destruct (row_of w video_id) as [v|] eqn:Hv.
  - destruct (first_ill_typed b) as [a|] eqn:Ha.
    + apply Hrefused. by eapply patch_ill_typed_db.
    + assert (∃ name views likes, b = body_with name views likes)
        as (name & views & likes & ->).
      { unfold first_ill_typed in Ha.
        destruct b as [[| |n] [| |vw] [| |l]]; try discriminate Ha.
        - by exists None, None, None.
        - by exists None, None, (Some l).
        - by exists None, (Some vw), None.
        - by exists None, (Some vw), (Some l).
        - by exists (Some n), None, None.
        - by exists (Some n), None, (Some l).
        - by exists (Some n), (Some vw), None.
        - by exists (Some n), (Some vw), (Some l). }
      pose proof (patch_present_row w video_id name views likes e1 v Hv) as Hv1.
      split.
      * rewrite (patch_present_answer _ _ _ _ _ _ _ Hv1),
          (patch_present_answer _ _ _ _ _ _ _ Hv).
        by rewrite merged_merged, !later_same.
      * rewrite (patch_present_db _ _ _ _ _ _ _ Hv1), (patch_present_db _ _ _ _ _ _ _ Hv).
        rewrite map_map. apply List.map_ext. intros r.
        destruct (has_id video_id r) eqn:E.
        -- assert (has_id video_id (merged name views likes r) = true) as -> by exact E.
           by rewrite merged_merged, !later_same.
        -- by rewrite E.
  - apply Hrefused. by apply patch_absent_db.
Qed.

Lemma patch_idempotent_example :
  (handle (PATCH 1 (body_with (Some "b") None (Some 5))) 2%N
     (handle (PATCH 1 (body_with (Some "b") None (Some 5))) 3%N one_video).2).1
  = {| body_of := Json (JObj [("id", JInt 1); ("name", JStr "b");
                              ("views", JInt 0); ("likes", JInt 5)]);
       status := 200 |}.
Proof. reflexivity. Qed.

(** A partial update with an empty body on an existing record changes
    nothing: the answer is 200 with the record as it is and the table is
    kept. *)
Theorem patch_empty_body w video_id elapsed v :
  row_of w video_id = Some v →
  (handle (PATCH video_id (body_with None None None)) elapsed w).1
  = {| body_of := Json (marshal v); status := 200 |}
  ∧ db (handle (PATCH video_id (body_with None None None)) elapsed w).2 = db w.
Proof.
  intros Hv. split.
  - rewrite (patch_present_answer _ _ _ _ _ _ _ Hv). by rewrite merged_nothing.
  - rewrite (patch_present_db _ _ _ _ _ _ _ Hv).
    rewrite <- (List.map_id (db w)) at 2. apply List.map_ext. intros r.
    destruct (has_id video_id r); [apply merged_nothing | done].
Qed.

Lemma patch_empty_body_witness :
  row_of one_video 1 = Some (VideoModel.Make 1 "a" 0 0)
  ∧ (handle (PATCH 1 (body_with None None None)) 3%N one_video).1
    = {| body_of := Json (JObj [("id", JInt 1); ("name", JStr "a");
                                ("views", JInt 0); ("likes", JInt 0)]);
         status := 200 |}
  ∧ db (handle (PATCH 1 (body_with None None None)) 3%N one_video).2
    = [VideoModel.Make 1 "a" 0 0].
Proof.
  split; [reflexivity |].
  apply (patch_empty_body one_video 1 3%N (VideoModel.Make 1 "a" 0 0)). reflexivity.
Defined.

(** ** Status codes and the table *)


(** A request that is answered with an error code (400 and above) leaves
    the table as it was. *)
Theorem error_keeps_table r elapsed w :
  400 ≤ status (handle r elapsed w).1 → db (handle r elapsed w).2 = db w.
Proof.
  destruct r as [k | k b | k b | k |].
  - intros _. by rewrite get_world.
  - destruct (put_db w k b elapsed) as [-> | (Hfree & n & v & l & Hnew)]; [done |].
    unfold row_of in Hfree. unfold_handler.
    destruct b as [[| |n'] [| |v'] [| |l']]; cbn; try done.
    rewrite Hfree. cbn. lia.
  - destruct (row_of w k) as [v|] eqn:Hv.
    + destruct (first_ill_typed b) as [a|] eqn:Ha.
      * intros _. by eapply patch_ill_typed_db.
      * unfold row_of in Hv. unfold first_ill_typed in Ha. unfold_handler. rewrite Hv.
        destruct b as [[| |n] [| |vw] [| |l]]; try discriminate Ha; cbn; lia.
    + intros _. by apply patch_absent_db.
  - unfold_handler. destruct (find (has_id k) (db w)); cbn; [lia | done].
  - done.
Qed.

Lemma error_keeps_table_witness :
  400 ≤ status (handle (PUT 1 (body_with (Some "b") (Some 5) (Some 6))) 3%N one_video).1
  ∧ db (handle (PUT 1 (body_with (Some "b") (Some 5) (Some 6))) 3%N one_video).2
    = db one_video.
Proof.
  split; [vm_compute; discriminate |].
  apply (error_keeps_table (PUT 1 (body_with (Some "b") (Some 5) (Some 6))) 3%N one_video).
  vm_compute. discriminate.
Defined.

(** A create that is answered with 201 had a body with all three arguments
    and an id without a row, and the table is the one before with exactly
    the row of the id and the arguments added at the end; the answer is that
    row. *)
Theorem put_created w video_id b elapsed :
  status (handle (PUT video_id b) elapsed w).1 = 201 →
  ∃ name views likes,
    b = {| b_name := Given name; b_views := Given views; b_likes := Given likes |}
    ∧ row_of w video_id = None
    ∧ (handle (PUT video_id b) elapsed w).1
      = {| body_of := Json (marshal (VideoModel.Make video_id name views likes));
           status := 201 |}
    ∧ db (handle (PUT video_id b) elapsed w).2
      = db w ++ [VideoModel.Make video_id name views likes].
Proof.
  unfold row_of. unfold_handler.
  destruct b as [[| |n] [| |v] [| |l]]; cbn; try discriminate.
  destruct (find (has_id video_id) (db w)) eqn:Hv; cbn; [discriminate |].
  intros _. by exists n, v, l.
Qed.

Lemma put_created_witness :
  status (handle (PUT 2 (body_with (Some "b") (Some 5) (Some 6))) 3%N one_video).1 = 201
  ∧ ∃ name views likes,
      body_with (Some "b") (Some 5) (Some 6)
      = {| b_name := Given name; b_views := Given views; b_likes := Given likes |}
      ∧ row_of one_video 2 = None
      ∧ (handle (PUT 2 (body_with (Some "b") (Some 5) (Some 6))) 3%N one_video).1
        = {| body_of := Json (marshal (VideoModel.Make 2 name views likes));
             status := 201 |}
      ∧ db (handle (PUT 2 (body_with (Some "b") (Some 5) (Some 6))) 3%N one_video).2
        = db one_video ++ [VideoModel.Make 2 name views likes].
Proof.
  split; [reflexivity |].
  apply (put_created one_video 2 (body_with (Some "b") (Some 5) (Some 6)) 3%N).
  reflexivity.
Defined.

(** ** Requests on one id and the rows of the others *)

Lemma find_has_id_snoc_other rows video_id v :
  has_id video_id v = false →
  find (has_id video_id) (rows ++ [v]) = find (has_id video_id) rows.
Proof.
  intros Hv. induction rows as [|r rows IH]; simpl; [by rewrite Hv |].
  destruct (has_id video_id r); [done | exact IH].
Qed.

Lemma find_has_id_filter_other rows video_id other :
  video_id ≠ other →
  find (has_id other) (List.filter (λ r, negb (has_id video_id r)) rows)
  = find (has_id other) rows.
Proof.
  intros Hne. induction rows as [|r rows IH]; simpl; [done |].
  destruct (has_id video_id r) eqn:E; simpl.
  - apply has_id_true in E.
    assert (has_id other r = false) as -> by (apply has_id_false; congruence).
    exact IH.
  - destruct (has_id other r); [done | exact IH].
Qed.

Lemma find_has_id_merged_other rows video_id other name views likes :
  video_id ≠ other →
  find (has_id other)
    (map (λ r, if has_id video_id r then merged name views likes r else r) rows)
  = find (has_id other) rows.
Proof.
  intros Hne. induction rows as [|r rows IH]; simpl; [done |].
  destruct (has_id video_id r) eqn:E.
  - apply has_id_true in E.
    assert (has_id other r = false) as Hr by (apply has_id_false; congruence).
    assert (has_id other (merged name views likes r) = false) as -> by exact Hr.
    by rewrite Hr.
  - destruct (has_id other r); [done | exact IH].
Qed.

(** A request about one id leaves the row of every other id as it is: what
    a lookup of another id finds is the same before and after. *)
Theorem other_ids_untouched r elapsed w other :
  target r ≠ Some other →
  row_of (handle r elapsed w).2 other = row_of w other.
Proof.
  intros Hother. unfold row_of. destruct r as [k | k b | k b | k |].
  - by rewrite get_world.
  - destruct (put_db w k b elapsed) as [-> | (_ & n & v & l & ->)]; [done |].
    apply find_has_id_snoc_other, has_id_false. cbn. intros ->. by apply Hother.
  - destruct (patch_db w k b elapsed) as [-> | (n & v & l & _ & ->)]; [done |].
    apply find_has_id_merged_other. intros ->. by apply Hother.
  - rewrite delete_db. apply find_has_id_filter_other. intros ->. by apply Hother.
  - done.
Qed.

Lemma other_ids_untouched_witness :
  target (DELETE 2) ≠ Some 1
  ∧ row_of (handle (DELETE 2) 3%N
              (handle (PUT 2 (body_with (Some "b") (Some 5) (Some 6))) 3%N one_video).2).2 1
    = row_of (handle (PUT 2 (body_with (Some "b") (Some 5) (Some 6))) 3%N one_video).2 1.
Proof.
  split; [discriminate |].
  apply (other_ids_untouched (DELETE 2) 3%N
           (handle (PUT 2 (body_with (Some "b") (Some 5) (Some 6))) 3%N one_video).2 1).
  discriminate.
Defined.

(** ** After a delete *)

(** Whatever the table held, after a delete of an id no row has the id: a
    second delete is answered with 404 and keeps the table, and a create
    with a complete body under the id is answered with 201 and its row. *)
Theorem delete_frees_id w video_id name views likes e1 e2 :
  row_of (handle (DELETE video_id) e1 w).2 video_id = None
  ∧ (handle (DELETE video_id) e2 (handle (DELETE video_id) e1 w).2).1 = not_found video_id
  ∧ db (handle (DELETE video_id) e2 (handle (DELETE video_id) e1 w).2).2
    = db (handle (DELETE video_id) e1 w).2
  ∧ (handle (PUT video_id (body_with (Some name) (Some views) (Some likes))) e2
       (handle (DELETE video_id) e1 w).2).1
    = {| body_of := Json (marshal (VideoModel.Make video_id name views likes));
         status := 201 |}.
Proof.
  assert (Hfree : row_of (handle (DELETE video_id) e1 w).2 video_id = None).
  { unfold row_of. rewrite delete_db. apply find_has_id_filter_out. }
  split; [exact Hfree |]. unfold row_of in Hfree.
  generalize dependent (handle (DELETE video_id) e1 w).2. intros w1 Hfree.
  repeat split; unfold_handler; by rewrite Hfree.
Qed.

(** ** The metrics resource *)


(** ** The metrics over a history *)

Lemma request_counter_step r elapsed w :
  request_counter (handle r elapsed w).2
  = match counted_under r with
    | Some labels => <[labels := S (counter_value w labels.1 labels.2)]> (request_counter w)
    | None => request_counter w
    end.
Proof.
  destruct r as [k | k b | k b | k |]; cbn [counted_under].
  - by rewrite get_world.
  - apply put_metrics.
  - apply patch_metrics.
  - apply delete_metrics.
  - reflexivity.
Qed.

Lemma response_histogram_step r elapsed w :
  response_histogram (handle r elapsed w).2
  = match timed_under r with
    | Some labels =>
        <[labels := observations w labels.1 labels.2 ++ [elapsed]]> (response_histogram w)
    | None => response_histogram w
    end.
Proof.
  destruct r as [k | k b | k b | k |]; cbn [timed_under].
  - by rewrite get_world.
  - apply put_metrics.
  - apply patch_metrics.
  - apply delete_metrics.
  - reflexivity.
Qed.

(** A counter child counts the requests handled under its labels, the
    refused ones like the accepted ones: after a history its value is the
    value before plus the number of requests of the history whose method
    increments it. *)
Theorem counter_counts_requests rs w method endpoint :
  counter_value (run rs w) method endpoint
  = (counter_value w method endpoint
     + length (filter (λ r, counted_under r.1 = Some (method, endpoint)) rs))%nat.
Proof.
  induction rs as [|[r elapsed] rs IH] using rev_ind; [cbn; lia |].
  rewrite run_snoc, filter_app, length_app.
  unfold counter_value at 1. rewrite request_counter_step.
  fold (counter_value (run rs w)).
  rewrite filter_cons, filter_nil. cbn [fst].
  destruct (decide (counted_under r = Some (method, endpoint))) as [Hr | Hr].
  - rewrite Hr. cbn [fst snd]. rewrite lookup_insert_eq. cbn. rewrite IH. lia.
  - destruct (counted_under r) as [labels|] eqn:Hl.
    + rewrite lookup_insert_ne by congruence.
      fold (counter_value (run rs w) method endpoint). rewrite IH. cbn. lia.
    + fold (counter_value (run rs w) method endpoint). rewrite IH. cbn. lia.
Qed.

(** A histogram child holds, in the order of the history, the elapsed
    times of the requests whose timer observes it, after the observations it
    held before. *)
Theorem histogram_records_requests rs w method endpoint :
  observations (run rs w) method endpoint
  = observations w method endpoint
    ++ (snd <$> filter (λ r, timed_under r.1 = Some (method, endpoint)) rs).
Proof.
  induction rs as [|[r elapsed] rs IH] using rev_ind; [cbn; by rewrite app_nil_r |].
  rewrite run_snoc, filter_app, fmap_app, app_assoc, <- IH.
  unfold observations at 1. rewrite response_histogram_step.
  rewrite filter_cons, filter_nil. cbn [fst].
  destruct (decide (timed_under r = Some (method, endpoint))) as [Hr | Hr].
  - rewrite Hr. cbn [fst snd]. by rewrite lookup_insert_eq.
  - destruct (timed_under r) as [labels|] eqn:Hl.
    + rewrite lookup_insert_ne by congruence.
      fold (observations (run rs w) method endpoint). cbn. by rewrite app_nil_r.
    + fold (observations (run rs w) method endpoint). cbn. by rewrite app_nil_r.
Qed.

Lemma counter_counts_requests_example :
  counter_value
    (run [(PUT 1 (body_with (Some "a") None None), 3%N); (GET 1, 1%N);
          (PUT 1 (body_with (Some "a") (Some 0) (Some 0)), 2%N)] initial)
    "PUT" "/video/<int:video_id>" = 2%nat.
Proof. reflexivity. Qed.

(** ** Tables reached from the empty one *)

Lemma find_has_id_unique rows v :
  NoDup (map VideoModel.id rows) → v ∈ rows →
  find (has_id (VideoModel.id v)) rows = Some v.
Proof.
  induction rows as [|r rows IH]; intros Hnd Hv; [by apply elem_of_nil in Hv |].
  cbn in Hnd. apply NoDup_cons in Hnd as [Hr Hnd]. simpl.
  apply elem_of_cons in Hv as [-> | Hv].
  - unfold has_id. by rewrite Z.eqb_refl.
  - destruct (has_id (VideoModel.id v) r) eqn:E; [| by apply IH].
    apply has_id_true in E. exfalso. apply Hr. rewrite E.
    by apply list_elem_of_fmap_2.
Qed.

Lemma filter_out_splits rows video_id v :
  NoDup (map VideoModel.id rows) → find (has_id video_id) rows = Some v →
  ∃ before after,
    rows = before ++ v :: after
    ∧ List.filter (λ r, negb (has_id video_id r)) rows = before ++ after.
Proof.
  induction rows as [|r rows IH]; intros Hnd Hv; [discriminate Hv |].
  cbn in Hnd. apply NoDup_cons in Hnd as [Hr Hnd]. simpl in *.
  destruct (has_id video_id r) eqn:E; simpl.
  - injection Hv as ->. exists [], rows. split; [done |]. cbn.
    apply forallb_filter_id, forallb_forall. intros r Hin.
    apply negb_true_iff, has_id_false. intros Hid. apply Hr.
    apply has_id_true in E. rewrite E, <- Hid.
    by apply list_elem_of_fmap_2, list_elem_of_In.
  - destruct (IH Hnd Hv) as (before & after & -> & ->).
    by exists (r :: before), after.
Qed.

(** In a table reached from the empty one every row is the one a fetch of
    its id answers with: no row is hidden behind another row of the same
    id. *)
Theorem stored_row_is_fetched rs v elapsed :
  v ∈ db (run rs initial) →
  handle (GET (VideoModel.id v)) elapsed (run rs initial)
  = ({| body_of := Json (marshal v); status := 200 |}, run rs initial).
Proof.
  intros Hv. pose proof (find_has_id_unique _ _ (ids_unique rs) Hv) as Hfind.
  unfold_handler. by rewrite Hfind.
Qed.

Lemma stored_row_is_fetched_witness :
  VideoModel.Make 2 "b" 9 6
    ∈ db (run [(PUT 2 (body_with (Some "b") (Some 5) (Some 6)), 3%N);
               (PATCH 2 (body_with None (Some 9) None), 4%N)] initial)
  ∧ handle (GET (VideoModel.id (VideoModel.Make 2 "b" 9 6))) 1%N
      (run [(PUT 2 (body_with (Some "b") (Some 5) (Some 6)), 3%N);
            (PATCH 2 (body_with None (Some 9) None), 4%N)] initial)
    = ({| body_of := Json (marshal (VideoModel.Make 2 "b" 9 6)); status := 200 |},
       run [(PUT 2 (body_with (Some "b") (Some 5) (Some 6)), 3%N);
            (PATCH 2 (body_with None (Some 9) None), 4%N)] initial).
Proof.
  split; [left |].
  apply (stored_row_is_fetched
           [(PUT 2 (body_with (Some "b") (Some 5) (Some 6)), 3%N);
            (PATCH 2 (body_with None (Some 9) None), 4%N)]
           (VideoModel.Make 2 "b" 9 6) 1%N).
  left.
Defined.

(** In a table reached from the empty one a delete of an id that has a row
    takes out that one row and nothing else: the rows before it and the rows
    after it stay, in their order. *)
Theorem delete_removes_one_row rs video_id elapsed v :
  row_of (run rs initial) video_id = Some v →
  ∃ before after,
    db (run rs initial) = before ++ v :: after
    ∧ db (handle (DELETE video_id) elapsed (run rs initial)).2 = before ++ after.
Proof.
  intros Hv. rewrite delete_db. apply filter_out_splits; [apply ids_unique | exact Hv].
Qed.

Lemma delete_removes_one_row_witness :
  row_of (run [(PUT 1 (body_with (Some "a") (Some 0) (Some 0)), 3%N);
               (PUT 2 (body_with (Some "b") (Some 5) (Some 6)), 3%N)] initial) 1
  = Some (VideoModel.Make 1 "a" 0 0)
  ∧ ∃ before after,
      db (run [(PUT 1 (body_with (Some "a") (Some 0) (Some 0)), 3%N);
               (PUT 2 (body_with (Some "b") (Some 5) (Some 6)), 3%N)] initial)
      = before ++ VideoModel.Make 1 "a" 0 0 :: after
      ∧ db (handle (DELETE 1) 4%N
              (run [(PUT 1 (body_with (Some "a") (Some 0) (Some 0)), 3%N);
                    (PUT 2 (body_with (Some "b") (Some 5) (Some 6)), 3%N)] initial)).2
        = before ++ after.
Proof.
  split; [reflexivity |].
  apply (delete_removes_one_row
           [(PUT 1 (body_with (Some "a") (Some 0) (Some 0)), 3%N);
            (PUT 2 (body_with (Some "b") (Some 5) (Some 6)), 3%N)] 1 4%N
           (VideoModel.Make 1 "a" 0 0)).
  reflexivity.
Defined.

(** ** The message of a missing id *)

(** The 404 answer tells the id apart: two fetches of ids without a row
    that are answered alike asked for the same id. *)
Theorem not_found_names_id w1 w2 k1 k2 e1 e2 :
  row_of w1 k1 = None → row_of w2 k2 = None →
  (handle (GET k1) e1 w1).1 = (handle (GET k2) e2 w2).1 →
  k1 = k2.
Proof.
  unfold row_of. intros H1 H2. unfold_handler. rewrite H1, H2. cbn.
  intros Heq. injection Heq as Heq.
  by apply (inj pretty).
Qed.

Lemma not_found_names_id_witness :
  (row_of one_video 2 = None ∧ row_of initial 2 = None
   ∧ (handle (GET 2) 1%N one_video).1 = (handle (GET 2) 5%N initial).1)
  ∧ 2 = 2.
Proof.
  split; [repeat split |].
  apply (not_found_names_id one_video initial 2 2 1%N 5%N); reflexivity.
Defined.
